(** * kopf.config: logging setup and the legacy configuration holders

    A shallow embedding of [kopf/config.py].  Python statements that
    mutate interpreter-wide objects (class attributes, the context
    variable, loggers) are written in a small state-and-exception monad,
    so that a raised exception carries the state reached when it was
    raised. *)

From Stdlib Require Import ZArith Uint63 Floats.
From stdpp Require Import gmap strings list fin_maps.

Set Warnings "-inexact-float".

Open Scope Z_scope.

(** ** Python values and control flow *)

Module Py.

(** The exception classes that occur in the module. *)
Inductive exn : Type :=
| ValueError (msg : string)
| LookupError
| ImportError
| RuntimeError.

Inductive outcome (A : Type) : Type :=
| Returns (a : A)
| Raises (e : exn).
Arguments Returns {A} a.
Arguments Raises {A} e.

(** A statement run in interpreter state [S]. *)
Definition M (S A : Type) : Type := S -> outcome A * S.

Definition ret {S A} (a : A) : M S A := fun s => (Returns a, s).
Definition raise {S A} (e : exn) : M S A := fun s => (Raises e, s).
Definition bind {S A B} (c : M S A) (k : A -> M S B) : M S B :=
  fun s =>
    match c s with
    | (Returns a, s') => k a s'
    | (Raises e, s') => (Raises e, s')
    end.

Definition modify {S} (f : S -> S) : M S unit := fun s => (Returns tt, f s).

(** [try: body / except <handled>: handler / else: orelse].  Exceptions
    of [orelse] and of [handler] are not caught, and neither are those
    of [body] that [handled] rejects. *)
Definition try_except_else {S A B}
    (body : M S A) (handled : exn -> bool)
    (handler : M S B) (orelse : A -> M S B) : M S B :=
  fun s =>
    match body s with
    | (Returns a, s') => orelse a s'
    | (Raises e, s') => if handled e then handler s' else (Raises e, s')
    end.

(** [for x in xs: body x]. *)
Fixpoint for_each {S A} (xs : list A) (body : A -> M S unit) : M S unit :=
  match xs with
  | [] => ret tt
  | x :: rest => bind (body x) (fun _ => for_each rest body)
  end.

(** Truth value of an [Optional[bool]]: [None] and [False] are falsy. *)
Definition truthy (b : option bool) : bool :=
  match b with
  | Some true => true
  | _ => false
  end.

(** [a or b] returns [a] when it is truthy and [b] otherwise. *)
Definition or_ (a b : option bool) : option bool :=
  if truthy a then a else b.

Definition is_LookupError (e : exn) : bool :=
  match e with LookupError => true | _ => false end.
Definition is_ImportError (e : exn) : bool :=
  match e with ImportError => true | _ => false end.

End Py.

Import Py.

Declare Scope py_scope.
Delimit Scope py_scope with py.
Notation "'let*' x ':=' c 'in' k" := (bind c (fun x => k))
  (at level 10, x name, c at level 100, k at level 200) : py_scope.
Notation "c ';;' k" := (bind c (fun _ => k))
  (at level 100, k at level 200, right associativity) : py_scope.

(** ** The configuration holders *)

(** [logging]'s numeric levels. *)
Module LoggingLevel.
Definition NOTSET : Z := 0.
Definition DEBUG : Z := 10.
Definition INFO : Z := 20.
Definition WARNING : Z := 30.
Definition ERROR : Z := 40.
Definition CRITICAL : Z := 50.
End LoggingLevel.

Definition LOGLEVEL_INFO : Z := LoggingLevel.INFO.
Definition LOGLEVEL_WARNING : Z := LoggingLevel.WARNING.
Definition LOGLEVEL_ERROR : Z := LoggingLevel.ERROR.
Definition LOGLEVEL_CRITICAL : Z := LoggingLevel.CRITICAL.

(** Class attributes of [EventsConfig]. *)
Record EventsConfig : Type := {
  events_loglevel : Z
}.

(** Class attributes of [WorkersConfig]; [None] is Python's [None]. *)
Record WorkersConfig : Type := {
  queue_workers_limit : option Z;
  synchronous_tasks_threadpool_limit : option Z;
  worker_idle_timeout : float;
  worker_batch_window : float;
  worker_exit_timeout : float
}.

(** Class attributes of [WatchersConfig]. *)
Record WatchersConfig : Type := {
  default_stream_timeout : option float;
  watcher_retry_delay : float;
  session_timeout : option float
}.

(** The attribute values right after the class bodies have run. *)
Definition EventsConfig_class : EventsConfig :=
  {| events_loglevel := LoggingLevel.INFO |}.

Definition WorkersConfig_class : WorkersConfig :=
  {| queue_workers_limit := None;
     synchronous_tasks_threadpool_limit := None;
     worker_idle_timeout := 5.0%float;
     worker_batch_window := 0.1%float;
     worker_exit_timeout := 2.0%float |}.

Definition WatchersConfig_class : WatchersConfig :=
  {| default_stream_timeout := None;
     watcher_retry_delay := 0.1%float;
     session_timeout := None |}.

(** ** The per-run settings and the context variable *)

(** Objects live in stores and are referred to by location, so that two
    holders of the same settings object see each other's writes. *)
Abbreviation loc := positive (only parsing).

(** Modelled from the spec: the per-run settings classes of
    [kopf.structs.configuration] (the spec's RunSettings); only the
    concurrency field that the mutator writes is given, as a plain
    attribute. *)
Record ExecutionSettings : Type := {
  max_workers : option Z
}.

(** Modelled from the spec: [OperatorSettings] refers to its execution
    settings object through the attribute [execution]. *)
Record OperatorSettings : Type := {
  execution : loc
}.

(** What the mutator can reach: the class, the context variable
    [posting.settings_var] (unbound when [None]) and the two stores. *)
Record Runtime : Type := {
  workers_config : WorkersConfig;
  settings_var : option loc;
  settings_objs : gmap positive OperatorSettings;
  execution_objs : gmap positive ExecutionSettings
}.

Definition with_max_workers (v : option Z) (e : ExecutionSettings)
    : ExecutionSettings :=
  {| max_workers := v |}.

(** Plain assignment [WorkersConfig.synchronous_tasks_threadpool_limit = v]:
    the attribute is an ordinary class attribute, nothing checks [v]. *)
Definition assign_synchronous_tasks_threadpool_limit (v : option Z)
    (rt : Runtime) : Runtime :=
  let w := workers_config rt in
  {| workers_config :=
       {| queue_workers_limit := queue_workers_limit w;
          synchronous_tasks_threadpool_limit := v;
          worker_idle_timeout := worker_idle_timeout w;
          worker_batch_window := worker_batch_window w;
          worker_exit_timeout := worker_exit_timeout w |};
     settings_var := settings_var rt;
     settings_objs := settings_objs rt;
     execution_objs := execution_objs rt |}.

(** [posting.settings_var.get()]: a [ContextVar] without a default
    raises [LookupError] when nothing is bound. *)
Definition settings_var_get : M Runtime loc :=
  fun rt =>
    match settings_var rt with
    | Some l => (Returns l, rt)
    | None => (Raises LookupError, rt)
    end.

(** [settings.execution.max_workers = v] for the settings object at [l]:
    the execution object it refers to is updated where it is stored.  A
    reference always denotes a stored object in Python; on a location
    without one the model writes nothing. *)
Definition assign_max_workers (l : loc) (v : option Z) (rt : Runtime)
    : Runtime :=
  match settings_objs rt !! l with
  | Some settings =>
      {| workers_config := workers_config rt;
         settings_var := settings_var rt;
         settings_objs := settings_objs rt;
         execution_objs :=
           alter (with_max_workers v) (execution settings)
                 (execution_objs rt) |}
  | None => rt
  end.

(** [WorkersConfig.set_synchronous_tasks_threadpool_limit]. *)
Definition set_synchronous_tasks_threadpool_limit (new_limit : Z)
    : M Runtime unit :=
  ((if new_limit <? 1
    then raise (ValueError "Can`t set threadpool limit lower than 1")
    else ret tt) ;;
   modify (assign_synchronous_tasks_threadpool_limit (Some new_limit)) ;;
   try_except_else settings_var_get is_LookupError
     (ret tt)
     (fun settings => modify (assign_max_workers settings (Some new_limit))))%py.

(** ** The [logging] objects that [configure] touches *)

Definition format : string :=
  "[%(asctime)s] %(name)-20.20s [%(levelname)-8.8s] %(message)s".

Inductive Formatter : Type :=
| PlainFormatter (fmt : string)
| ObjectPrefixingFormatter (fmt : string).

Inductive HandlerClass : Type :=
| StreamHandler
| NullHandler
| OtherHandler (cls : string).

(** A handler object; [h_id] is its identity (handlers compare by
    identity, so two handlers are the same object iff their ids agree). *)
Record Handler : Type := {
  h_id : nat;
  h_class : HandlerClass;
  h_formatter : option Formatter
}.

Record Logger : Type := {
  level : Z;
  handlers : list Handler;
  propagate : bool
}.

(** What [logging.getLogger(name)] creates for a name it has not seen. *)
Definition new_Logger : Logger :=
  {| level := LoggingLevel.NOTSET; handlers := []; propagate := true |}.

(** The default configuration object of the Kubernetes client, with the
    three attributes [configure] assigns. *)
Record Configuration : Type := {
  logger_format : string;
  logger_file : option string;
  debug_flag : option bool
}.

(** The interpreter-wide state [configure] reads and writes.
    [kubernetes_default] is [None] when the package cannot be imported,
    and otherwise holds what [Configuration.set_default] stored last
    ([Some None] before any call).  [event_loop] is the current event
    loop of the calling thread, given by its debug flag; it is [None]
    when the thread has none, which is when [asyncio.get_event_loop()]
    raises. *)
Record Process : Type := {
  root : Logger;
  loggers : gmap string Logger;
  next_handler : nat;
  kubernetes_default : option (option Configuration);
  event_loop : option bool
}.

Definition with_root (f : Logger -> Logger) (p : Process) : Process :=
  {| root := f (root p);
     loggers := loggers p;
     next_handler := next_handler p;
     kubernetes_default := kubernetes_default p;
     event_loop := event_loop p |}.

Definition with_loggers
    (f : gmap string Logger -> gmap string Logger) (p : Process) : Process :=
  {| root := root p;
     loggers := f (loggers p);
     next_handler := next_handler p;
     kubernetes_default := kubernetes_default p;
     event_loop := event_loop p |}.

Definition with_kubernetes_default (c : Configuration) (p : Process)
    : Process :=
  {| root := root p;
     loggers := loggers p;
     next_handler := next_handler p;
     kubernetes_default := Some (Some c);
     event_loop := event_loop p |}.

(** [asyncio.get_event_loop()]: a [RuntimeError] in a thread that has
    no current event loop. *)
Definition get_event_loop : M Process unit :=
  fun p =>
    match event_loop p with
    | Some _ => (Returns tt, p)
    | None => (Raises RuntimeError, p)
    end.

(** [loop.set_debug(b)] on the current event loop. *)
Definition loop_set_debug (b : bool) (p : Process) : Process :=
  {| root := root p;
     loggers := loggers p;
     next_handler := next_handler p;
     kubernetes_default := kubernetes_default p;
     event_loop := match event_loop p with
                   | Some _ => Some b
                   | None => None
                   end |}.

(** Constructing a handler allocates a new object. *)
Definition new_handler (cls : HandlerClass) : M Process Handler :=
  fun p =>
    (Returns {| h_id := next_handler p; h_class := cls;
                h_formatter := None |},
     {| root := root p;
        loggers := loggers p;
        next_handler := S (next_handler p);
        kubernetes_default := kubernetes_default p;
        event_loop := event_loop p |}).

(** [handler.setFormatter(fmt)]. *)
Definition setFormatter (fmt : Formatter) (h : Handler) : Handler :=
  {| h_id := h_id h; h_class := h_class h; h_formatter := Some fmt |}.

Definition same_object (h h' : Handler) : bool :=
  Nat.eqb (h_id h) (h_id h').

(** [Logger.addHandler]: appends unless the very object is there. *)
Definition addHandler (h : Handler) (lg : Logger) : Logger :=
  if existsb (same_object h) (handlers lg) then lg
  else {| level := level lg;
          handlers := handlers lg ++ [h];
          propagate := propagate lg |}.

(** [logging._nameToLevel]. *)
Definition nameToLevel (name : string) : option Z :=
  if String.eqb name "CRITICAL" then Some LoggingLevel.CRITICAL
  else if String.eqb name "FATAL" then Some LoggingLevel.CRITICAL
  else if String.eqb name "ERROR" then Some LoggingLevel.ERROR
  else if String.eqb name "WARN" then Some LoggingLevel.WARNING
  else if String.eqb name "WARNING" then Some LoggingLevel.WARNING
  else if String.eqb name "INFO" then Some LoggingLevel.INFO
  else if String.eqb name "DEBUG" then Some LoggingLevel.DEBUG
  else if String.eqb name "NOTSET" then Some LoggingLevel.NOTSET
  else None.

Definition set_level (v : Z) (lg : Logger) : Logger :=
  {| level := v; handlers := handlers lg; propagate := propagate lg |}.

Definition set_handlers (hs : list Handler) (lg : Logger) : Logger :=
  {| level := level lg; handlers := hs; propagate := propagate lg |}.

Definition set_propagate (b : bool) (lg : Logger) : Logger :=
  {| level := level lg; handlers := handlers lg; propagate := b |}.

(** [logging.getLogger().setLevel(name)]: an unknown level name is a
    [ValueError], whose message shows the name as [repr] does (written
    here for a name without quotes, backslashes or control
    characters). *)
Definition root_setLevel (name : string) : M Process unit :=
  match nameToLevel name with
  | Some v => modify (with_root (set_level v))
  | None => raise (ValueError ("Unknown level: '" +:+ name +:+ "'"))
  end.

(** The logger [logging.getLogger(name)] returns, created on first use. *)
Definition getLogger (name : string) (lgs : gmap string Logger) : Logger :=
  default new_Logger (lgs !! name).

(** An in-place change [f] of the logger called [name]. *)
Definition on_logger (name : string) (f : Logger -> Logger)
    : M Process unit :=
  modify (with_loggers (fun lgs => <[name := f (getLogger name lgs)]> lgs)).

(** ** [configure] *)

Section Configure.

(** The client's configuration object as its constructor leaves it. *)
Variable Configuration_new : Configuration.

(** What building the client's configuration does to the named
    loggers: the client installs stream handlers of its own on the
    loggers it uses, whatever the mode.  It has no access to the
    process root logger. *)
Variable client_loggers :
  Configuration -> gmap string Logger -> gmap string Logger.

(** [import kubernetes]. *)
Definition import_kubernetes : M Process unit :=
  fun p =>
    match kubernetes_default p with
    | Some _ => (Returns tt, p)
    | None => (Raises ImportError, p)
    end.

Definition configure (debug verbose quiet : option bool)
    : M Process unit :=
  (let log_level :=
     if truthy (or_ debug verbose) then "DEBUG"
     else if truthy quiet then "WARNING" else "INFO" in
   let* handler := new_handler StreamHandler in
   let formatter := ObjectPrefixingFormatter format in
   let handler := setFormatter formatter handler in
   modify (with_root (addHandler handler)) ;;
   root_setLevel log_level ;;
   try_except_else import_kubernetes is_ImportError
     (ret tt)
     (fun _ =>
        let config := Configuration_new in
        let config :=
          {| logger_format := format;
             logger_file := logger_file config;
             debug_flag := debug_flag config |} in
        let config :=
          {| logger_format := logger_format config;
             logger_file := None;
             debug_flag := debug_flag config |} in
        let config :=
          {| logger_format := logger_format config;
             logger_file := logger_file config;
             debug_flag := debug |} in
        modify (with_loggers (client_loggers config)) ;;
        modify (with_kubernetes_default config)) ;;
   (if negb (truthy debug)
    then on_logger "urllib3" (fun lg => set_handlers (take 1 (handlers lg)) lg)
    else ret tt) ;;
   for_each ["urllib3"; "asyncio"; "kubernetes"]
     (fun name =>
        on_logger name (set_propagate (truthy debug)) ;;
        if negb (truthy debug)
        then let* null := new_handler NullHandler in
             on_logger name (set_handlers [null])
        else ret tt) ;;
   get_event_loop ;;
   modify (loop_set_debug (truthy debug)))%py.

End Configure.

(** ** Names used in the statements *)

(** The loggers of the dependencies that [configure] silences. *)
Definition noisy_loggers : list string := ["urllib3"; "asyncio"; "kubernetes"].

(** The stream handler a call of [configure] in state [p] constructs. *)
Definition installed_handler (p : Process) : Handler :=
  {| h_id := next_handler p; h_class := StreamHandler;
     h_formatter := Some (ObjectPrefixingFormatter format) |}.

(** The null handler object with identity [i]. *)
Definition null_handler (i : nat) : Handler :=
  {| h_id := i; h_class := NullHandler; h_formatter := None |}.

(** The client configuration [configure debug _ _] hands to
    [set_default]. *)
Definition client_configuration (debug : option bool) : Configuration :=
  {| logger_format := format; logger_file := None; debug_flag := debug |}.

(** The named loggers as the client block leaves them, that is, at the
    point where the silencing of the dependencies starts. *)
Definition loggers_after_client
    (client_loggers : Configuration -> gmap string Logger -> gmap string Logger)
    (debug : option bool) (p : Process) : gmap string Logger :=
  match kubernetes_default p with
  | Some _ => client_loggers (client_configuration debug) (loggers p)
  | None => loggers p
  end.

(** Handlers are allocated with increasing identities, so those on the
    root logger are all older than the next one to be constructed. *)
Definition root_handlers_allocated (p : Process) : Prop :=
  Forall (fun h => (h_id h < next_handler p)%nat) (handlers (root p)).

(** The level the flags select, following the specification's words:
    DEBUG if debug or verbose, else WARNING if quiet, else INFO. *)
Definition chosen_level (debug verbose quiet : option bool) : Z :=
  if truthy debug || truthy verbose then LoggingLevel.DEBUG
  else if truthy quiet then LoggingLevel.WARNING
  else LoggingLevel.INFO.

(** A logger reduced to the single null handler with identity [i]. *)
Definition quiet_logger (i : nat) (lg : Logger) : Logger :=
  {| level := level lg; handlers := [null_handler i]; propagate := false |}.

(** How the call ends: normally when the calling thread has a current
    event loop, with the [RuntimeError] of [get_event_loop] otherwise. *)
Definition configure_outcome (p : Process) : outcome unit :=
  match event_loop p with
  | Some _ => Returns tt
  | None => Raises RuntimeError
  end.

(** The event loop after the call: its debug flag is [bool(debug)]. *)
Definition configured_loop (debug : option bool) (p : Process)
    : option bool :=
  match event_loop p with
  | Some _ => Some (truthy debug)
  | None => None
  end.

(** Position of a name in [noisy_loggers], counted from 1. *)
Definition noisy_index (name : string) : option nat :=
  if decide (name = "urllib3") then Some 1%nat
  else if decide (name = "asyncio") then Some 2%nat
  else if decide (name = "kubernetes") then Some 3%nat
  else None.

(** ** Sample states *)

Module Sample.

(** A run is active: the context variable is bound to the settings
    object at 1, whose execution settings live at 7; another
    execution object lives at 9. *)
Definition active_run : Runtime :=
  {| workers_config := WorkersConfig_class;
     settings_var := Some 1%positive;
     settings_objs := {[ 1%positive := {| execution := 7%positive |} ]};
     execution_objs :=
       <[ 7%positive := {| max_workers := None |} ]>
         {[ 9%positive := {| max_workers := Some 3 |} ]} |}.

(** No run is active. *)
Definition load_time : Runtime :=
  {| workers_config := WorkersConfig_class;
     settings_var := None;
     settings_objs := ∅;
     execution_objs := ∅ |}.

(** A process in which [urllib3] has been imported (it carries its
    default null handler) and the Kubernetes client is importable. *)
Definition process : Process :=
  {| root := {| level := LoggingLevel.WARNING;
                handlers := [ {| h_id := 0; h_class := OtherHandler "FileHandler";
                                 h_formatter := None |} ];
                propagate := true |};
     loggers := {[ "urllib3" := {| level := LoggingLevel.NOTSET;
                                   handlers := [null_handler 1];
                                   propagate := true |} ]};
     next_handler := 2;
     kubernetes_default := Some None;
     event_loop := Some false |}.

Definition constructed : Configuration :=
  {| logger_format := "%(asctime)s %(levelname)s %(message)s";
     logger_file := None;
     debug_flag := Some false |}.

(** A client that puts a stream handler of its own on [urllib3] and
    on its package logger. *)
Definition client (c : Configuration) (lgs : gmap string Logger)
    : gmap string Logger :=
  let h := {| h_id := 1000; h_class := StreamHandler;
              h_formatter := Some (PlainFormatter (logger_format c)) |} in
  <["client" := addHandler h (getLogger "client" lgs)]>
    (<["urllib3" := addHandler h (getLogger "urllib3" lgs)]> lgs).

(** A run whose settings object at 1 shares its execution settings,
    stored at 7, with a second settings object at 2. *)
Definition shared_run : Runtime :=
  {| workers_config := WorkersConfig_class;
     settings_var := Some 1%positive;
     settings_objs :=
       <[ 1%positive := {| execution := 7%positive |} ]>
         {[ 2%positive := {| execution := 7%positive |} ]};
     execution_objs := {[ 7%positive := {| max_workers := Some 5 |} ]} |}.

(** A process without the Kubernetes client. *)
Definition bare_process : Process :=
  {| root := new_Logger;
     loggers := {[ "aiohttp" := {| level := LoggingLevel.INFO;
                                   handlers := [null_handler 0];
                                   propagate := true |} ]};
     next_handler := 1;
     kubernetes_default := None;
     event_loop := Some true |}.


End Sample.

(** * Properties *)

(** ** The configuration holders *)

(** The decimal literals denote the doubles Python reads them as: [5.0]
    and [2.0] are the integers, and [0.1] is the double nearest to one
    tenth, that is, the rounded quotient. *)
Lemma default_floats_exact :
  worker_idle_timeout WorkersConfig_class = PrimFloat.of_uint63 5%uint63 /\
  worker_exit_timeout WorkersConfig_class = PrimFloat.of_uint63 2%uint63 /\
  worker_batch_window WorkersConfig_class
    = (PrimFloat.of_uint63 1%uint63 / PrimFloat.of_uint63 10%uint63)%float /\
  watcher_retry_delay WatchersConfig_class
    = (PrimFloat.of_uint63 1%uint63 / PrimFloat.of_uint63 10%uint63)%float.
Proof. repeat split; vm_compute; reflexivity. Qed.

(** C9: the initial values of the configuration holders are
    [watcher_retry_delay = 0.1], [worker_idle_timeout = 5.0],
    [worker_batch_window = 0.1], [worker_exit_timeout = 2.0], while
    [queue_workers_limit], [synchronous_tasks_threadpool_limit],
    [default_stream_timeout] and [session_timeout] are all [None]. *)
Theorem default_values :
  watcher_retry_delay WatchersConfig_class = 0.1%float /\
  worker_idle_timeout WorkersConfig_class = 5.0%float /\
  worker_batch_window WorkersConfig_class = 0.1%float /\
  worker_exit_timeout WorkersConfig_class = 2.0%float /\
  queue_workers_limit WorkersConfig_class = None /\
  synchronous_tasks_threadpool_limit WorkersConfig_class = None /\
  default_stream_timeout WatchersConfig_class = None /\
  session_timeout WatchersConfig_class = None.
Proof. repeat split. Qed.

(** ** The thread-pool limit mutator *)

Section Mutator.

Variable new_limit : Z.
Variable rt : Runtime.

Let result := set_synchronous_tasks_threadpool_limit new_limit rt.

(** Below the bound, the call raises at its first statement. *)
Lemma mutator_rejected :
  new_limit < 1 ->
  result
  = (Raises (ValueError "Can`t set threadpool limit lower than 1"), rt).
Proof.
  intros Hlt. subst result.
  unfold set_synchronous_tasks_threadpool_limit, bind.
  apply Z.ltb_lt in Hlt. rewrite Hlt. reflexivity.
Qed.

(** From the bound on, the call returns, and the state it leaves is
    the static assignment followed by the live one, if any. *)
Lemma mutator_accepted :
  1 <= new_limit ->
  result
  = (Returns tt,
     let rt1 :=
       assign_synchronous_tasks_threadpool_limit (Some new_limit) rt in
     match settings_var rt with
     | Some l => assign_max_workers l (Some new_limit) rt1
     | None => rt1
     end).
Proof.
  intros Hle. subst result.
  unfold set_synchronous_tasks_threadpool_limit, bind, try_except_else,
    settings_var_get, modify, ret.
  destruct (Z.ltb_spec new_limit 1) as [Hlt | _]; [lia |].
  cbn. destruct (settings_var rt); reflexivity.
Qed.

End Mutator.

Lemma assign_max_workers_static l v rt :
  workers_config (assign_max_workers l v rt) = workers_config rt.
Proof. unfold assign_max_workers. destruct (_ !! l); reflexivity. Qed.

Lemma assign_max_workers_settings l v rt :
  settings_var (assign_max_workers l v rt) = settings_var rt /\
  settings_objs (assign_max_workers l v rt) = settings_objs rt.
Proof. unfold assign_max_workers. destruct (_ !! l); split; reflexivity. Qed.

(** The live assignment changes at most the execution object of the
    settings at [l], and leaves there the assigned value. *)
Lemma assign_max_workers_lookup l v rt e :
  execution_objs (assign_max_workers l v rt) !! e
  = match settings_objs rt !! l with
    | Some settings =>
        if decide (execution settings = e)
        then with_max_workers v <$> execution_objs rt !! e
        else execution_objs rt !! e
    | None => execution_objs rt !! e
    end.
Proof.
  unfold assign_max_workers. destruct (settings_objs rt !! l) as [s|]; cbn.
  - rewrite lookup_alter. case_decide; subst; reflexivity.
  - reflexivity.
Qed.

(** C1: for every [new_limit >= 1] the call succeeds, sets the static
    class field to [new_limit], and, when a settings object is bound in
    the calling context, sets the [max_workers] of that object's
    execution settings to [new_limit] in place: the binding and the
    settings object stay the same, the execution object is updated at
    its location, and no other execution object changes. *)
Theorem set_limit_succeeds (new_limit : Z) (rt : Runtime) :
  1 <= new_limit ->
  let rt' := snd (set_synchronous_tasks_threadpool_limit new_limit rt) in
  fst (set_synchronous_tasks_threadpool_limit new_limit rt) = Returns tt /\
  synchronous_tasks_threadpool_limit (workers_config rt') = Some new_limit /\
  (forall l settings ex,
      settings_var rt = Some l ->
      settings_objs rt !! l = Some settings ->
      execution_objs rt !! execution settings = Some ex ->
      settings_var rt' = Some l /\
      settings_objs rt' !! l = Some settings /\
      execution_objs rt' !! execution settings
      = Some {| max_workers := Some new_limit |} /\
      (forall e, e <> execution settings ->
                 execution_objs rt' !! e = execution_objs rt !! e)).
Proof.
  intros Hle rt'. subst rt'. rewrite (mutator_accepted _ _ Hle). cbn [fst snd].
  split; [reflexivity |]. split.
  - destruct (settings_var rt); [rewrite assign_max_workers_static |];
      reflexivity.
  - intros l settings ex Hvar Hobj Hex. rewrite Hvar.
    destruct (assign_max_workers_settings l (Some new_limit)
                (assign_synchronous_tasks_threadpool_limit (Some new_limit) rt))
      as [-> ->].
    cbn. repeat split; [assumption | assumption | |].
    + rewrite assign_max_workers_lookup. cbn. rewrite Hobj.
      rewrite decide_True by reflexivity. rewrite Hex. reflexivity.
    + intros e Hne. rewrite assign_max_workers_lookup. cbn. rewrite Hobj.
      rewrite decide_False by congruence. reflexivity.
Qed.

(** C2: the call raises the invalid-argument error if and only if
    [new_limit < 1] (and raises nothing else), and then the state is the
    one it was called in. *)
Theorem set_limit_rejects (new_limit : Z) (rt : Runtime) :
  (new_limit < 1 <->
   exists msg,
     fst (set_synchronous_tasks_threadpool_limit new_limit rt)
     = Raises (ValueError msg)) /\
  (forall e,
      fst (set_synchronous_tasks_threadpool_limit new_limit rt) = Raises e ->
      new_limit < 1 /\
      e = ValueError "Can`t set threadpool limit lower than 1" /\
      snd (set_synchronous_tasks_threadpool_limit new_limit rt) = rt).
Proof.
  destruct (Z.lt_ge_cases new_limit 1) as [Hlt | Hge].
  - rewrite (mutator_rejected _ _ Hlt). cbn. split.
    + split; [eauto | intros _; assumption].
    + intros e [= <-]. auto.
  - rewrite (mutator_accepted _ _ Hge). cbn. split.
    + split; [lia | intros [msg [=]]].
    + intros e [=].
Qed.

(** C3: for every [new_limit >= 1], with nothing bound in the calling
    context, the call returns normally and its only effect is the new
    value of the static field. *)
Theorem set_limit_unbound (new_limit : Z) (rt : Runtime) :
  1 <= new_limit ->
  settings_var rt = None ->
  let rt' := snd (set_synchronous_tasks_threadpool_limit new_limit rt) in
  fst (set_synchronous_tasks_threadpool_limit new_limit rt) = Returns tt /\
  synchronous_tasks_threadpool_limit (workers_config rt') = Some new_limit /\
  queue_workers_limit (workers_config rt')
  = queue_workers_limit (workers_config rt) /\
  worker_idle_timeout (workers_config rt')
  = worker_idle_timeout (workers_config rt) /\
  worker_batch_window (workers_config rt')
  = worker_batch_window (workers_config rt) /\
  worker_exit_timeout (workers_config rt')
  = worker_exit_timeout (workers_config rt) /\
  settings_var rt' = None /\
  settings_objs rt' = settings_objs rt /\
  execution_objs rt' = execution_objs rt.
Proof.
  intros Hle Hvar rt'. subst rt'. rewrite (mutator_accepted _ _ Hle).
  rewrite Hvar. cbn. repeat split. assumption.
Qed.

(** C6: the call returns only for a limit of at least 1, and whatever
    it stores, into the static field or into an execution object, is
    that limit, hence at least 1; the check sits in the mutator alone:
    plain assignment of the static field stores any value, for
    instance 0. *)
Theorem limit_checked_by_mutator_only (new_limit : Z) (rt : Runtime) :
  let rt' := snd (set_synchronous_tasks_threadpool_limit new_limit rt) in
  (fst (set_synchronous_tasks_threadpool_limit new_limit rt) = Returns tt ->
   1 <= new_limit) /\
  (synchronous_tasks_threadpool_limit (workers_config rt')
   <> synchronous_tasks_threadpool_limit (workers_config rt) ->
   1 <= new_limit /\
   synchronous_tasks_threadpool_limit (workers_config rt') = Some new_limit) /\
  (forall e,
      execution_objs rt' !! e <> execution_objs rt !! e ->
      1 <= new_limit /\
      execution_objs rt' !! e = Some {| max_workers := Some new_limit |}) /\
  (forall v rt0,
      synchronous_tasks_threadpool_limit
        (workers_config (assign_synchronous_tasks_threadpool_limit v rt0))
      = v) /\
  synchronous_tasks_threadpool_limit
    (workers_config (assign_synchronous_tasks_threadpool_limit (Some 0) rt))
  = Some 0.
Proof.
  intros rt'. subst rt'.
  destruct (Z.lt_ge_cases new_limit 1) as [Hlt | Hge].
  - rewrite (mutator_rejected _ _ Hlt). cbn.
    repeat split; try reflexivity; intros; congruence.
  - rewrite (mutator_accepted _ _ Hge). cbn [snd].
    split; [intros _; assumption |].
    split; [| split; [| split; reflexivity]].
    + intros _. split; [assumption |].
      destruct (settings_var rt); [rewrite assign_max_workers_static |];
        reflexivity.
    + intros e Hne. split; [assumption |].
      destruct (settings_var rt) as [l|]; [| cbn in Hne; congruence].
      revert Hne. rewrite assign_max_workers_lookup. cbn.
      destruct (settings_objs rt !! l) as [s|]; [| congruence].
      case_decide; [| congruence].
      destruct (execution_objs rt !! e); [reflexivity | cbn; congruence].
Qed.

(** The mutator on the sample states. *)
Lemma set_limit_succeeds_witness :
  fst (set_synchronous_tasks_threadpool_limit 8 Sample.active_run)
  = Returns tt /\
  synchronous_tasks_threadpool_limit
    (workers_config
       (snd (set_synchronous_tasks_threadpool_limit 8 Sample.active_run)))
  = Some 8 /\
  execution_objs
    (snd (set_synchronous_tasks_threadpool_limit 8 Sample.active_run))
    !! 7%positive
  = Some {| max_workers := Some 8 |} /\
  execution_objs
    (snd (set_synchronous_tasks_threadpool_limit 8 Sample.active_run))
    !! 9%positive
  = Some {| max_workers := Some 3 |}.
Proof.
  destruct (set_limit_succeeds 8 Sample.active_run ltac:(lia))
    as (Hret & Hstatic & Hlive).
  destruct (Hlive 1%positive {| execution := 7%positive |}
              {| max_workers := None |} eq_refl eq_refl eq_refl)
    as (_ & _ & Hexec & Hframe).
  split; [exact Hret |]. split; [exact Hstatic |].
  split; [exact Hexec |].
  rewrite (Hframe 9%positive ltac:(discriminate)). reflexivity.
Defined.

Lemma set_limit_rejects_witness :
  (exists msg,
      fst (set_synchronous_tasks_threadpool_limit 0 Sample.active_run)
      = Raises (ValueError msg)) /\
  snd (set_synchronous_tasks_threadpool_limit 0 Sample.active_run)
  = Sample.active_run.
Proof.
  destruct (set_limit_rejects 0 Sample.active_run) as [Hiff Hraise].
  split.
  - apply Hiff. lia.
  - apply (Hraise (ValueError "Can`t set threadpool limit lower than 1")).
    reflexivity.
Defined.

Lemma set_limit_unbound_witness :
  fst (set_synchronous_tasks_threadpool_limit 4 Sample.load_time)
  = Returns tt /\
  synchronous_tasks_threadpool_limit
    (workers_config
       (snd (set_synchronous_tasks_threadpool_limit 4 Sample.load_time)))
  = Some 4.
Proof.
  destruct (set_limit_unbound 4 Sample.load_time ltac:(lia) eq_refl)
    as (Hret & Hstatic & _).
  split; [exact Hret | exact Hstatic].
Defined.

Lemma limit_checked_by_mutator_only_witness :
  1 <= 2 /\
  synchronous_tasks_threadpool_limit
    (workers_config
       (snd (set_synchronous_tasks_threadpool_limit 2 Sample.active_run)))
  = Some 2 /\
  execution_objs
    (snd (set_synchronous_tasks_threadpool_limit 2 Sample.active_run))
    !! 7%positive
  = Some {| max_workers := Some 2 |}.
Proof.
  destruct (limit_checked_by_mutator_only 2 Sample.active_run)
    as (Hret & Hstatic & Hlive & _).
  split; [apply Hret; reflexivity |].
  split.
  - apply Hstatic. discriminate.
  - apply Hlive. discriminate.
Defined.

(** ** The logging setup *)

Lemma getLogger_insert (name name' : string) (lg : Logger)
    (lgs : gmap string Logger) :
  getLogger name' (<[name := lg]> lgs)
  = if decide (name = name') then lg else getLogger name' lgs.
Proof.
  unfold getLogger. rewrite lookup_insert. case_decide; reflexivity.
Qed.

(** The three level names [configure] can pass are known to [logging],
    so setting the level never raises. *)
Lemma root_setLevel_chosen (debug verbose quiet : option bool) :
  root_setLevel
    (if truthy (or_ debug verbose) then "DEBUG"
     else if truthy quiet then "WARNING" else "INFO")
  = modify (with_root (set_level (chosen_level debug verbose quiet))).
Proof.
  destruct debug as [[|]|], verbose as [[|]|], quiet as [[|]|]; reflexivity.
Qed.

(** A handler newer than all those of a logger is appended to them. *)
Lemma addHandler_fresh (h : Handler) (lg : Logger) :
  Forall (fun h' => (h_id h' < h_id h)%nat) (handlers lg) ->
  handlers (addHandler h lg) = handlers lg ++ [h].
Proof.
  intros Hold. unfold addHandler.
  replace (existsb (same_object h) (handlers lg)) with false; [reflexivity |].
  symmetry. induction Hold as [| h' hs Hlt _ IH]; [reflexivity |].
  cbn. rewrite IH. unfold same_object.
  destruct (Nat.eqb_spec (h_id h) (h_id h')); [lia | reflexivity].
Qed.

Section ConfigureFacts.

Variable Configuration_new : Configuration.
Variable client_loggers :
  Configuration -> gmap string Logger -> gmap string Logger.
Variables debug verbose quiet : option bool.
Variable p : Process.

Let run := configure Configuration_new client_loggers debug verbose quiet p.
Let before := loggers_after_client client_loggers debug p.

Ltac run_cases :=
  subst run before;
  unfold configure; cbv zeta; rewrite root_setLevel_chosen;
  unfold loggers_after_client, client_configuration;
  unfold configure_outcome, configured_loop;
  destruct p as [r lgs n [k|] [ld|]];
  destruct (truthy debug) eqn:Hdebug;
  cbn [fst snd root loggers next_handler kubernetes_default event_loop
       bind ret modify try_except_else import_kubernetes is_ImportError
       for_each on_logger new_handler negb get_event_loop
       with_root with_loggers with_kubernetes_default loop_set_debug
       logger_format logger_file debug_flag].

(** The call ends normally exactly when there is a current event loop;
    nothing before the last step can raise. *)
Lemma configure_ends : fst run = configure_outcome p.
Proof. run_cases; reflexivity. Qed.

Lemma configure_root :
  root (snd run)
  = set_level (chosen_level debug verbose quiet)
      (addHandler (installed_handler p) (root p)).
Proof. run_cases; reflexivity. Qed.

(** One handler is constructed in debug mode, four otherwise. *)
Lemma configure_next_handler :
  next_handler (snd run)
  = ((if truthy debug then 1 else 4) + next_handler p)%nat.
Proof. run_cases; reflexivity. Qed.

Lemma configure_kubernetes_default :
  kubernetes_default (snd run)
  = match kubernetes_default p with
    | Some _ => Some (Some (client_configuration debug))
    | None => None
    end.
Proof. run_cases; reflexivity. Qed.

Lemma configure_event_loop :
  event_loop (snd run) = configured_loop debug p.
Proof. run_cases; reflexivity. Qed.

(** Every named logger after the call, in terms of the loggers the
    client block left: the three dependencies are rewritten, all others
    are as they were. *)
Lemma configure_lookup (name : string) :
  loggers (snd run) !! name
  = match noisy_index name with
    | Some i =>
        Some (if truthy debug
              then set_propagate true (getLogger name before)
              else quiet_logger (i + next_handler p) (getLogger name before))
    | None => before !! name
    end.
Proof.
  run_cases.
  all: rewrite !getLogger_insert, !lookup_insert; unfold noisy_index.
  all: repeat case_decide; subst; try congruence; try reflexivity.
Qed.

(** The allocation discipline of the root handlers survives the call,
    and the handler it installs lands behind the old ones. *)
Lemma configure_root_handlers :
  root_handlers_allocated p ->
  handlers (root (snd run)) = handlers (root p) ++ [installed_handler p] /\
  root_handlers_allocated (snd run).
Proof.
  intros Halloc.
  assert (Happ : handlers (root (snd run))
                 = handlers (root p) ++ [installed_handler p]).
  { rewrite configure_root. cbn [set_level handlers].
    apply addHandler_fresh. exact Halloc. }
  split; [exact Happ |].
  unfold root_handlers_allocated. rewrite Happ, configure_next_handler.
  apply Forall_app. split.
  - eapply Forall_impl; [exact Halloc |]. cbn. intros h Hlt.
    destruct (truthy debug); lia.
  - constructor; [| constructor]. cbn. destruct (truthy debug); lia.
Qed.

End ConfigureFacts.

Section ConfigureClaims.

Variable Configuration_new : Configuration.
Variable client_loggers :
  Configuration -> gmap string Logger -> gmap string Logger.

Abbreviation configure' := (configure Configuration_new client_loggers).

(** C4: for all flag combinations the call leaves the root logger at
    DEBUG if [debug] or [verbose] is truthy, otherwise at WARNING if
    [quiet] is truthy, otherwise at INFO; in particular [debug=True]
    gives DEBUG even together with [quiet=True].  The level is set
    however the call ends: it returns when the calling thread has a
    current event loop and raises [RuntimeError] at its last step
    otherwise. *)
Theorem configure_root_level (debug verbose quiet : option bool)
    (p : Process) :
  level (root (snd (configure' debug verbose quiet p)))
  = (if truthy debug || truthy verbose then LoggingLevel.DEBUG
     else if truthy quiet then LoggingLevel.WARNING
     else LoggingLevel.INFO) /\
  level (root (snd (configure' (Some true) verbose (Some true) p)))
  = LoggingLevel.DEBUG /\
  fst (configure' debug verbose quiet p)
  = match event_loop p with
    | Some _ => Returns tt
    | None => Raises RuntimeError
    end.
Proof.
  rewrite !configure_root. split; [reflexivity |]. split; [reflexivity |].
  apply configure_ends.
Qed.

(** C5: after the call with [debug] falsy, each of the loggers
    [urllib3], [asyncio] and [kubernetes] exists with exactly one
    handler, a null handler, and with [propagate = False]; with [debug]
    truthy, each has [propagate = True] and the very handlers it had
    when the silencing started (those the client block left). *)
Theorem configure_noisy_loggers (debug verbose quiet : option bool)
    (p : Process) :
  Forall
    (fun name =>
       exists lg,
         loggers (snd (configure' debug verbose quiet p)) !! name = Some lg /\
         if truthy debug
         then propagate lg = true /\
              handlers lg
              = handlers
                  (getLogger name
                     (loggers_after_client client_loggers debug p))
         else propagate lg = false /\
              exists h, handlers lg = [h] /\ h_class h = NullHandler)
    noisy_loggers.
Proof.
  unfold noisy_loggers.
  repeat (constructor; [rewrite configure_lookup; cbn [noisy_index]; cbn;
                        eexists; split; [reflexivity |] |]);
    [.. | constructor].
  all: destruct (truthy debug); cbn; eauto.
Qed.


(** C8: the setup is not idempotent.  Each call appends one newly
    constructed stream handler to the root logger, so two calls in a
    row leave two of them behind the handlers that were there, distinct
    objects of the same make, instead of one. *)
Theorem configure_not_idempotent
    (debug verbose quiet debug' verbose' quiet' : option bool)
    (p : Process) :
  root_handlers_allocated p ->
  let p1 := snd (configure' debug verbose quiet p) in
  let p2 := snd (configure' debug' verbose' quiet' p1) in
  handlers (root p1) = handlers (root p) ++ [installed_handler p] /\
  handlers (root p2)
  = handlers (root p) ++ [installed_handler p; installed_handler p1] /\
  h_id (installed_handler p) <> h_id (installed_handler p1) /\
  h_class (installed_handler p) = StreamHandler /\
  h_class (installed_handler p1) = StreamHandler /\
  h_formatter (installed_handler p1) = h_formatter (installed_handler p) /\
  handlers (root p2) <> handlers (root p1) /\
  length (handlers (root p2)) = (2 + length (handlers (root p)))%nat.
Proof.
  intros Halloc p1 p2.
  destruct (configure_root_handlers Configuration_new client_loggers
              debug verbose quiet p Halloc) as [H1 Halloc1].
  destruct (configure_root_handlers Configuration_new client_loggers
              debug' verbose' quiet' p1 Halloc1) as [H2 _].
  fold p1 in H1. fold p2 in H2.
  assert (H2' : handlers (root p2)
                = handlers (root p)
                    ++ [installed_handler p; installed_handler p1]).
  { rewrite H2, H1, <- app_assoc. reflexivity. }
  split; [exact H1 |]. split; [exact H2' |].
  split.
  { cbn. subst p1. rewrite configure_next_handler.
    destruct (truthy debug); lia. }
  repeat (split; [reflexivity |]).
  split.
  - intros Heq. apply (f_equal length) in Heq.
    rewrite H2, length_app in Heq. cbn in Heq. lia.
  - rewrite H2', length_app. cbn. lia.
Qed.

(** Only the truth values of the flags matter for the loggers and the
    event loop: a call agrees on them with the call on the flags
    coerced to booleans. *)
Lemma configure_truthiness (debug verbose quiet : option bool)
    (p : Process) :
  let p1 := snd (configure' debug verbose quiet p) in
  let p2 :=
    snd (configure' (Some (truthy debug)) (Some (truthy verbose))
           (Some (truthy quiet)) p) in
  root p1 = root p2 /\
  (forall name,
      is_Some (noisy_index name) ->
      handlers (getLogger name (loggers p1))
      = handlers (getLogger name (loggers p2)) /\
      propagate (getLogger name (loggers p1))
      = propagate (getLogger name (loggers p2))) /\
  event_loop p1 = event_loop p2.
Proof.
  intros p1 p2. subst p1 p2.
  assert (Ht : forall b, truthy (Some (truthy b)) = truthy b)
    by (intros [[|]|]; reflexivity).
  split; [| split].
  - rewrite !configure_root. unfold chosen_level. rewrite !Ht. reflexivity.
  - intros name [i Hi]. unfold getLogger.
    rewrite !configure_lookup, Hi, Ht.
    destruct debug as [[|]|]; cbn; split; reflexivity.
  - rewrite !configure_event_loop. unfold configured_loop.
    rewrite Ht. reflexivity.
Qed.

(** C10: the call with all three arguments unset and the call with all
    three [False] end the same way and leave the same root logger
    (level and handlers), the same handlers and propagation on the
    three silenced loggers, and the same event loop with the same debug
    flag. *)
Theorem configure_unset_is_false (p : Process) :
  let r1 := configure' None None None p in
  let r2 := configure' (Some false) (Some false) (Some false) p in
  fst r1 = fst r2 /\
  level (root (snd r1)) = level (root (snd r2)) /\
  handlers (root (snd r1)) = handlers (root (snd r2)) /\
  Forall
    (fun name =>
       handlers (getLogger name (loggers (snd r1)))
       = handlers (getLogger name (loggers (snd r2))) /\
       propagate (getLogger name (loggers (snd r1)))
       = propagate (getLogger name (loggers (snd r2))))
    noisy_loggers /\
  event_loop (snd r1) = event_loop (snd r2) /\
  truthy None = truthy (Some false).
Proof.
  intros r1 r2. subst r1 r2.
  destruct (configure_truthiness None None None p) as (Hroot & Hnoisy & Hloop).
  cbn [truthy] in Hroot, Hnoisy, Hloop.
  split; [rewrite !configure_ends; reflexivity |].
  rewrite Hroot. split; [reflexivity |]. split; [reflexivity |].
  split; [| split; [exact Hloop | reflexivity]].
  unfold noisy_loggers.
  repeat (constructor; [apply Hnoisy; cbn; eauto |]). constructor.
Qed.

End ConfigureClaims.


(** Two calls on the sample process: the file handler that was there is
    followed by two stream handlers. *)
Lemma configure_not_idempotent_witness :
  root_handlers_allocated Sample.process /\
  handlers
    (root
       (snd (configure Sample.constructed Sample.client None None None
               (snd (configure Sample.constructed Sample.client
                       None None None Sample.process)))))
  = handlers (root Sample.process)
      ++ [ {| h_id := 2; h_class := StreamHandler;
              h_formatter := Some (ObjectPrefixingFormatter format) |};
           {| h_id := 6; h_class := StreamHandler;
              h_formatter := Some (ObjectPrefixingFormatter format) |} ].
Proof.
  assert (Halloc : root_handlers_allocated Sample.process)
    by (repeat constructor).
  split; [exact Halloc |].
  destruct (configure_not_idempotent Sample.constructed Sample.client
              None None None None None None Sample.process Halloc)
    as (_ & Htwo & _).
  exact Htwo.
Defined.

(** The two calls of C10 do differ elsewhere: the client configuration
    records the [debug] argument as it was passed. *)
Lemma configure_unset_client_flag :
  kubernetes_default
    (snd (configure Sample.constructed Sample.client None None None
            Sample.process))
  <> kubernetes_default
       (snd (configure Sample.constructed Sample.client
               (Some false) (Some false) (Some false) Sample.process)).
Proof. rewrite !configure_kubernetes_default. discriminate. Qed.

(** * Further properties *)

(** ** The mutator: composition, frame and sharing *)

Lemma with_max_workers_twice (v w : option Z) (e : ExecutionSettings) :
  with_max_workers v (with_max_workers w e) = with_max_workers v e.
Proof. reflexivity. Qed.

(** X1: of two accepted calls in a row the second one wins: the state is
    the one the second call alone would have left. *)
Theorem set_limit_last_wins (n m : Z) (rt : Runtime) :
  1 <= n -> 1 <= m ->
  set_synchronous_tasks_threadpool_limit m
    (snd (set_synchronous_tasks_threadpool_limit n rt))
  = set_synchronous_tasks_threadpool_limit m rt.
Proof.
  intros Hn Hm.
  rewrite (mutator_accepted n rt Hn). cbn [snd].
  rewrite !(mutator_accepted m _ Hm). f_equal.
  destruct rt as [w [l|] so eo]; cbn; [| reflexivity].
  unfold assign_max_workers; cbn.
  destruct (so !! l) as [s|] eqn:Hs; cbn; rewrite ?Hs; [| reflexivity].
  f_equal. rewrite alter_alter_eq. apply alter_ext.
  intros e _. apply with_max_workers_twice.
Qed.

Lemma set_limit_last_wins_witness :
  set_synchronous_tasks_threadpool_limit 2
    (snd (set_synchronous_tasks_threadpool_limit 8 Sample.active_run))
  = set_synchronous_tasks_threadpool_limit 2 Sample.active_run.
Proof.
  apply (set_limit_last_wins 8 2 Sample.active_run); lia.
Defined.

(** X2: whatever its argument, accepted or not, the call never rebinds the
    context variable, never touches a settings object or one of the
    other class attributes, and neither creates nor drops an execution
    object. *)
Theorem set_limit_frame (new_limit : Z) (rt : Runtime) :
  let rt' := snd (set_synchronous_tasks_threadpool_limit new_limit rt) in
  settings_var rt' = settings_var rt /\
  settings_objs rt' = settings_objs rt /\
  dom (execution_objs rt') = dom (execution_objs rt) /\
  queue_workers_limit (workers_config rt')
  = queue_workers_limit (workers_config rt) /\
  worker_idle_timeout (workers_config rt')
  = worker_idle_timeout (workers_config rt) /\
  worker_batch_window (workers_config rt')
  = worker_batch_window (workers_config rt) /\
  worker_exit_timeout (workers_config rt')
  = worker_exit_timeout (workers_config rt).
Proof.
  intros rt'. subst rt'.
  destruct (Z.lt_ge_cases new_limit 1) as [Hlt | Hge].
  - rewrite (mutator_rejected _ _ Hlt). cbn. repeat split.
  - rewrite (mutator_accepted _ _ Hge). cbn [snd].
    destruct rt as [w [l|] so eo]; cbn; [| repeat split].
    unfold assign_max_workers; cbn.
    destruct (so !! l) as [s|]; cbn; repeat split.
    apply dom_alter_L.
Qed.

(** X3: the live write is seen through every settings object that shares
    the execution settings of the bound one, not only through the
    bound one. *)
Theorem set_limit_shared (new_limit : Z) (rt : Runtime)
    (l l' : positive) (s s' : OperatorSettings) :
  1 <= new_limit ->
  settings_var rt = Some l ->
  settings_objs rt !! l = Some s ->
  settings_objs rt !! l' = Some s' ->
  execution s' = execution s ->
  is_Some (execution_objs rt !! execution s) ->
  let rt' := snd (set_synchronous_tasks_threadpool_limit new_limit rt) in
  settings_objs rt' !! l' = Some s' /\
  execution_objs rt' !! execution s'
  = Some {| max_workers := Some new_limit |}.
Proof.
  intros Hle Hvar Hs Hs' Hshare [ex Hex] rt'. subst rt'.
  rewrite (mutator_accepted _ _ Hle). cbn [snd]. rewrite Hvar.
  split.
  - rewrite (proj2 (assign_max_workers_settings _ _ _)). exact Hs'.
  - rewrite assign_max_workers_lookup. cbn. rewrite Hs, Hshare.
    rewrite decide_True by reflexivity. rewrite Hex. reflexivity.
Qed.

Lemma set_limit_shared_witness :
  execution_objs
    (snd (set_synchronous_tasks_threadpool_limit 3 Sample.shared_run))
    !! execution {| execution := 7%positive |}
  = Some {| max_workers := Some 3 |}.
Proof.
  apply (set_limit_shared 3 Sample.shared_run 1%positive 2%positive
           {| execution := 7%positive |} {| execution := 7%positive |}).
  - lia.
  - reflexivity.
  - reflexivity.
  - reflexivity.
  - reflexivity.
  - exists {| max_workers := Some 5 |}. reflexivity.
Defined.

(** ** The logging setup: what it leaves alone and how calls compose *)

Section ConfigureMore.

Variable Configuration_new : Configuration.
Variable client_loggers :
  Configuration -> gmap string Logger -> gmap string Logger.

Abbreviation run_configure := (configure Configuration_new client_loggers).

(** X4: loggers other than the three dependencies are not touched by the
    call itself: each is as the client block left it, hence as it was
    before the call when the client cannot be imported. *)
Theorem configure_other_loggers (debug verbose quiet : option bool)
    (p : Process) (name : string) :
  name <> "urllib3" -> name <> "asyncio" -> name <> "kubernetes" ->
  loggers (snd (run_configure debug verbose quiet p)) !! name
  = match kubernetes_default p with
    | Some _ =>
        client_loggers (client_configuration debug) (loggers p) !! name
    | None => loggers p !! name
    end.
Proof.
  intros H1 H2 H3. rewrite configure_lookup.
  unfold noisy_index. rewrite !decide_False by assumption.
  unfold loggers_after_client. destruct (kubernetes_default p); reflexivity.
Qed.

(** X5: the root logger keeps the handlers it had, in their order, and its
    propagation flag; the call adds at most one handler behind them,
    the stream handler it constructs. *)
Theorem configure_keeps_root_handlers (debug verbose quiet : option bool)
    (p : Process) :
  let p' := snd (run_configure debug verbose quiet p) in
  (handlers (root p') = handlers (root p) \/
   handlers (root p') = handlers (root p) ++ [installed_handler p]) /\
  propagate (root p') = propagate (root p).
Proof.
  intros p'. subst p'. rewrite configure_root. unfold addHandler.
  destruct (existsb _ _); cbn; auto.
Qed.

(** X6: the call never leaves the root logger above WARNING, nor at NOTSET:
    warnings and errors of the operator always pass the root level. *)
Theorem configure_root_level_bounds (debug verbose quiet : option bool)
    (p : Process) :
  LoggingLevel.DEBUG
  <= level (root (snd (run_configure debug verbose quiet p)))
  <= LOGLEVEL_WARNING.
Proof.
  rewrite configure_root. cbn [level set_level]. unfold chosen_level.
  destruct (truthy debug || truthy verbose), (truthy quiet);
    unfold LOGLEVEL_WARNING, LoggingLevel.DEBUG, LoggingLevel.INFO,
      LoggingLevel.WARNING; lia.
Qed.



(** X8: outside debug mode each dependency gets a null handler of its own:
    three objects constructed by this call, distinct from each other and
    from the stream handler put on the root logger. *)
Theorem configure_null_handlers_distinct (debug verbose quiet : option bool)
    (p : Process) :
  truthy debug = false ->
  let p' := snd (run_configure debug verbose quiet p) in
  exists h1 h2 h3,
    handlers (getLogger "urllib3" (loggers p')) = [h1] /\
    handlers (getLogger "asyncio" (loggers p')) = [h2] /\
    handlers (getLogger "kubernetes" (loggers p')) = [h3] /\
    h_id h1 <> h_id h2 /\ h_id h1 <> h_id h3 /\ h_id h2 <> h_id h3 /\
    Forall (fun h => h_id h <> h_id (installed_handler p) /\
                     (next_handler p <= h_id h < next_handler p')%nat)
      [h1; h2; h3].
Proof.
  intros Hd p'. subst p'.
  exists (null_handler (1 + next_handler p)),
    (null_handler (2 + next_handler p)),
    (null_handler (3 + next_handler p)).
  unfold getLogger.
  rewrite !configure_lookup, configure_next_handler, Hd. cbn.
  repeat split; try lia.
  repeat constructor; cbn; lia.
Qed.

(** X9: turning debug on after a non-debug call re-enables propagation on
    the three dependencies but does not give them their handlers back:
    without the client, each still carries the null handler of the
    first call and nothing else. *)
Theorem configure_debug_after_quiet
    (debug verbose quiet debug' verbose' quiet' : option bool)
    (p : Process) (name : string) (i : nat) :
  kubernetes_default p = None ->
  truthy debug = false ->
  truthy debug' = true ->
  noisy_index name = Some i ->
  let p1 := snd (run_configure debug verbose quiet p) in
  let p2 := snd (run_configure debug' verbose' quiet' p1) in
  exists lg,
    loggers p2 !! name = Some lg /\
    propagate lg = true /\
    handlers lg = [null_handler (i + next_handler p)].
Proof.
  intros Hk Hd Hd' Hi p1 p2. subst p2.
  assert (Hk1 : kubernetes_default p1 = None).
  { subst p1. rewrite configure_kubernetes_default. rewrite Hk. reflexivity. }
  assert (H1 : loggers p1 !! name
               = Some (quiet_logger (i + next_handler p)
                         (getLogger name (loggers p)))).
  { subst p1. rewrite configure_lookup, Hi, Hd.
    unfold loggers_after_client. rewrite Hk. reflexivity. }
  rewrite configure_lookup, Hi, Hd'. eexists. split; [reflexivity |].
  unfold loggers_after_client, getLogger. rewrite Hk1, H1.
  split; reflexivity.
Qed.

End ConfigureMore.

Lemma configure_null_handlers_distinct_witness :
  exists h1 h2 h3,
    handlers
      (getLogger "urllib3"
         (loggers (snd (configure Sample.constructed Sample.client
                          None (Some true) None Sample.process))))
    = [h1] /\
    handlers
      (getLogger "asyncio"
         (loggers (snd (configure Sample.constructed Sample.client
                          None (Some true) None Sample.process))))
    = [h2] /\
    handlers
      (getLogger "kubernetes"
         (loggers (snd (configure Sample.constructed Sample.client
                          None (Some true) None Sample.process))))
    = [h3] /\
    h_id h1 <> h_id h2 /\ h_id h1 <> h_id h3 /\ h_id h2 <> h_id h3.
Proof.
  destruct (configure_null_handlers_distinct Sample.constructed Sample.client
              None (Some true) None Sample.process eq_refl)
    as (h1 & h2 & h3 & H1 & H2 & H3 & H12 & H13 & H23 & _).
  exists h1, h2, h3.
  exact (conj H1 (conj H2 (conj H3 (conj H12 (conj H13 H23))))).
Defined.


Lemma configure_other_loggers_witness :
  loggers
    (snd (configure Sample.constructed Sample.client None None None
            Sample.bare_process))
    !! "aiohttp"
  = Some {| level := LoggingLevel.INFO;
            handlers := [null_handler 0];
            propagate := true |}.
Proof.
  rewrite (configure_other_loggers Sample.constructed Sample.client
             None None None Sample.bare_process "aiohttp");
    [reflexivity | discriminate | discriminate | discriminate].
Defined.

Lemma configure_debug_after_quiet_witness :
  exists lg,
    loggers
      (snd (configure Sample.constructed Sample.client (Some true) None None
              (snd (configure Sample.constructed Sample.client
                      None None None Sample.bare_process))))
      !! "asyncio"
    = Some lg /\
    propagate lg = true /\
    handlers lg = [null_handler 3].
Proof.
  apply (configure_debug_after_quiet Sample.constructed Sample.client
           None None None (Some true) None None
           Sample.bare_process "asyncio" 2);
    reflexivity.
Defined.
